(** * RoamUnofficial: the Roam bot client of [roam_unofficial/roam.py]

    A shallow embedding of the class [Roam] (constructor, [send_message],
    [list_channels], [test_connection] and the [notify] decorator) and of the
    parts of the Python runtime it runs on: exceptions, [str.format], [set],
    [dict] and the HTTP calls made through [requests].

    Naming.  The specification speaks of [sendMessage], [listChannels],
    [testConnection], [NotifyWrapper], [defaultChannels], of the template
    variables [funcName], [startTime], [endTime], [funcException], and of
    [ConfigurationError] and [ProtocolError].  In the source these are
    [send_message], [list_channels], [test_connection], [notify],
    [self.channels], [func_name], [func_start_time], [func_end_time],
    [func_exception], and both error kinds are Python's [ValueError]. *)

From Stdlib Require Import Ascii String.
From stdpp Require Import gmap strings list fin_maps pretty.

Set Warnings "-register-all".
Open Scope string_scope.

(** ** Python values and exceptions *)

(** An exception object.  The program looks at an exception in two ways only:
    the [except Exception] clause asks whether its class derives from
    [Exception] (everything does except [KeyboardInterrupt], [SystemExit]
    and their kin), and [str.format] asks for [str(e)]. *)
Record exn := mk_exn {
  exc_class : string;
  exc_is_Exception : bool;
  exc_text : string
}.

(** A value passed to or returned by a decorated function.  [VObj shown] is
    an object of any other class, known by the text [str()] gives for it. *)
Inductive pyval :=
  | VNone
  | VBool (b : bool)
  | VInt (n : Z)
  | VStr (s : string)
  | VExc (e : exn)
  | VObj (shown : string).

(** [format(v, spec)] at the empty spec, which for these classes is
    [str(v)]. *)
Definition py_str (v : pyval) : string :=
  match v with
  | VNone => "None"
  | VBool true => "True"
  | VBool false => "False"
  | VInt n => pretty n
  | VStr s => s
  | VExc e => exc_text e
  | VObj shown => shown
  end.

(** A decoded JSON document, as [json.loads] returns it: [None], [bool],
    [int], [float] (kept as its literal: the client never computes with
    one), [str], [list] and [dict].  An object keeps its members in order,
    with distinct keys. *)
Inductive json :=
  | JNull
  | JBool (b : bool)
  | JInt (n : Z)
  | JFloat (literal : string)
  | JStr (s : string)
  | JArr (items : list json)
  | JObj (members : list (string * json)).

(** The name of the Python class of a decoded value, as error messages
    print it. *)
Definition type_name (j : json) : string :=
  match j with
  | JNull => "NoneType"
  | JBool _ => "bool"
  | JInt _ => "int"
  | JFloat _ => "float"
  | JStr _ => "str"
  | JArr _ => "list"
  | JObj _ => "dict"
  end.

(** ** Results, the world and the computation monad *)

(** The outcome of running Python code: a value, a raised exception, or
    [Unmodelled] where the embedding of a library function does not cover
    the input (see [str_format] and [RoamGroup]). *)
Inductive res (A : Type) :=
  | Ret (a : A)
  | Raise (e : exn)
  | Unmodelled.
Arguments Ret {A} a.
Arguments Raise {A} e.
Arguments Unmodelled {A}.

Record sender := mk_sender {
  sender_id : string;
  sender_name : string;
  sender_imageUrl : string
}.

(** The message payload, the dict with keys [sender], [text] and
    [recipients] that [send_message] serialises.  [recipients] is [None]
    where the Python value is [None] (JSON [null]). *)
Record payload := mk_payload {
  pl_sender : sender;
  pl_text : string;
  pl_recipients : option (list string)
}.

Record http_request := mk_request {
  rq_method : string;
  rq_url : string;
  rq_headers : gmap string string;
  rq_data : option payload
}.

(** What lies outside the client: the wall clock, read by
    [datetime.now().strftime("%Y-%m-%d %H:%M:%S")], and the requests handed
    to the HTTP library so far, oldest first. *)
Record world := mk_world {
  clock : string;
  outbox : list http_request
}.

(** What the client does not decide: the order in which a [set] is iterated,
    whether the transport raises on a POST, and what a GET decodes to
    ([json.loads] of the response text, or the exception of the transport or
    of the decoder). *)
Record py_env := mk_env {
  set_order : gset string → list string;
  post_error : http_request → option exn;
  get_json : http_request → res json
}.

(** Python iterates a set in some order, each element once. *)
Definition env_ok (E : py_env) : Prop :=
  ∀ X : gset string, set_order E X ≡ₚ elements X.

Definition py (A : Type) : Type := world → res A * world.

Definition ret {A} (a : A) : py A := λ w, (Ret a, w).
Definition raise {A} (e : exn) : py A := λ w, (Raise e, w).
Definition lift {A} (r : res A) : py A := λ w, (r, w).

Definition bind {A B} (c : py A) (k : A → py B) : py B :=
  λ w, match c w with
       | (Ret a, w') => k a w'
       | (Raise e, w') => (Raise e, w')
       | (Unmodelled, w') => (Unmodelled, w')
       end.

Notation "x <- c ;; k" := (bind c (λ x, k))
  (at level 100, c at next level, right associativity).

(** [try: body except Exception as e: handler e]. *)
Definition try_except {A} (body : py A) (handler : exn → py A) : py A :=
  λ w, match body w with
       | (Raise e, w') =>
           if exc_is_Exception e then handler e w' else (Raise e, w')
       | other => other
       end.

Definition now : py string := λ w, (Ret (clock w), w).

(** ** Exceptions raised by the runtime and by the client *)

Definition ValueError (msg : string) : exn := mk_exn "ValueError" true msg.
Definition TypeError (msg : string) : exn := mk_exn "TypeError" true msg.
Definition IndexError (msg : string) : exn := mk_exn "IndexError" true msg.
Definition AttributeError (msg : string) : exn :=
  mk_exn "AttributeError" true msg.

(** ** [str.format]

    Characters are bytes here ([ascii]), which is Python's [str] on ASCII
    text. *)

Definition hex_digit (n : nat) : ascii :=
  match n with
  | 0 => "0" | 1 => "1" | 2 => "2" | 3 => "3" | 4 => "4" | 5 => "5"
  | 6 => "6" | 7 => "7" | 8 => "8" | 9 => "9" | 10 => "a" | 11 => "b"
  | 12 => "c" | 13 => "d" | 14 => "e" | _ => "f"
  end%char.

Definition backslash : ascii := ascii_of_nat 92.
Definition single_quote : ascii := ascii_of_nat 39.
Definition double_quote : ascii := ascii_of_nat 34.

Definition has_char (c : ascii) (cs : list ascii) : bool :=
  existsb (Ascii.eqb c) cs.

(** One character of [repr(s)] inside the quotes [q]. *)
Definition repr_char (q c : ascii) : list ascii :=
  let n := nat_of_ascii c in
  if Ascii.eqb c q || Ascii.eqb c backslash then [backslash; c]
  else if (n =? 9)%nat then [backslash; "t"%char]
  else if (n =? 10)%nat then [backslash; "n"%char]
  else if (n =? 13)%nat then [backslash; "r"%char]
  else if (n <? 32)%nat || (n =? 127)%nat
       then [backslash; "x"%char; hex_digit (n / 16); hex_digit (n mod 16)]
  else [c].

(** [repr(s)] of a string: single quotes, unless the string holds a single
    quote and no double quote. *)
Definition py_repr (s : string) : string :=
  let cs := list_ascii_of_string s in
  let q := if has_char single_quote cs && negb (has_char double_quote cs)
           then double_quote else single_quote in
  string_of_list_ascii (q :: concat (map (repr_char q) cs) ++ [q]).

(** [KeyError(key)]: its [str()] is the [repr] of the key. *)
Definition KeyError (key : string) : exn :=
  mk_exn "KeyError" true (py_repr key).

Definition PY_SSIZE_T_MAX : Z := 2 ^ 63 - 1.

Definition digit_value (c : ascii) : option Z :=
  let n := nat_of_ascii c in
  if (48 <=? n)%nat && (n <=? 57)%nat then Some (Z.of_nat n - 48)%Z else None.

(** The formatter's reading of a field name as an argument index. *)
Inductive index_reading :=
  | NotAnIndex
  | Index (n : Z)
  | TooManyDigits.

Fixpoint get_integer (acc : Z) (cs : list ascii) : index_reading :=
  match cs with
  | [] => Index acc
  | c :: rest =>
      match digit_value c with
      | None => NotAnIndex
      | Some d =>
          if (acc >? (PY_SSIZE_T_MAX - d) / 10)%Z then TooManyDigits
          else get_integer (acc * 10 + d) rest
      end
  end.

Definition out_of_range (n : Z) : exn :=
  IndexError ("Replacement index " ++ pretty n ++
              " out of range for positional args tuple").

(** The object a replacement field names, rendered with an empty format
    spec.  The client calls [format] with keyword arguments only, so the
    tuple of positional arguments is empty: a field with no name (numbered
    automatically, and the first such field gets 0) or with a number finds
    nothing there. *)
Definition get_field (ctx : gmap string pyval) (name : string)
    : res string :=
  match name with
  | EmptyString => Raise (out_of_range 0)
  | _ =>
      match get_integer 0 (list_ascii_of_string name) with
      | TooManyDigits =>
          Raise (ValueError "Too many decimal digits in format string")
      | Index n => Raise (out_of_range n)
      | NotAnIndex =>
          match ctx !! name with
          | Some v => Ret (py_str v)
          | None => Raise (KeyError name)
          end
      end
  end.

(** Where the scanner of a format string stands: in literal text, just
    after a brace that may be the first of a doubled one, or inside a
    replacement field whose name so far is [name]. *)
Inductive scan :=
  | InText
  | AfterOpen
  | AfterClose
  | InField (name : string).

(** What one more character makes the scanner do. *)
Inductive event :=
  | Emit (st : scan) (text : string)
  | Field (name : string)
  | Fail (e : exn)
  | Beyond.

(** A character inside a replacement field.  The fragment modelled is the
    field that is a plain name: an attribute or an index after the name
    ([.] and [[]), a conversion ([!]) and a format spec ([:]) are beyond
    it. *)
Definition in_field (name : string) (c : ascii) : event :=
  match c with
  | "{" => Fail (ValueError "unexpected '{' in field name")
  | "}" => Field name
  | "." | "[" | "!" | ":" => Beyond
  | _ => Emit (InField (name ++ String c EmptyString)) EmptyString
  end%char.

Definition step (st : scan) (c : ascii) : event :=
  match st with
  | InText =>
      match c with
      | "{" => Emit AfterOpen EmptyString
      | "}" => Emit AfterClose EmptyString
      | _ => Emit InText (String c EmptyString)
      end%char
  | AfterOpen =>
      match c with
      | "{" => Emit InText "{"
      | _ => in_field EmptyString c
      end%char
  | AfterClose =>
      match c with
      | "}" => Emit InText "}"
      | _ => Fail (ValueError "Single '}' encountered in format string")
      end%char
  | InField name => in_field name c
  end.

(** The end of the format string. *)
Definition finish (st : scan) (out : string) : res string :=
  match st with
  | InText => Ret out
  | AfterOpen => Raise (ValueError "Single '{' encountered in format string")
  | AfterClose =>
      Raise (ValueError "Single '}' encountered in format string")
  | InField _ => Raise (ValueError "expected '}' before end of string")
  end.

(** The formatter's loop: text and fields are handled from left to right,
    and the first failure ends it. *)
Fixpoint render (ctx : gmap string pyval) (st : scan) (out : string)
    (cs : list ascii) : res string :=
  match cs with
  | [] => finish st out
  | c :: rest =>
      match step st c with
      | Emit st' text => render ctx st' (out ++ text) rest
      | Field name =>
          match get_field ctx name with
          | Ret text => render ctx InText (out ++ text) rest
          | Raise e => Raise e
          | Unmodelled => Unmodelled
          end
      | Fail e => Raise e
      | Beyond => Unmodelled
      end
  end.

(** [template.format] applied to the keyword arguments [ctx]. *)
Definition str_format (template : string) (ctx : gmap string pyval)
    : res string :=
  render ctx InText EmptyString (list_ascii_of_string template).

(** The call of [template.format] with the dict [kwargs] unpacked and then
    the keywords [k1=v1, ..., kn=vn], made while no exception is being
    handled: a keyword given twice is refused before [format] runs; the
    first of [k1], ..., [kn] found in [kwargs] is the one reported. *)
Definition format_kw (template : string) (kwargs : gmap string pyval)
    (named : list (string * pyval)) : res string :=
  match find (λ kv, bool_decide (is_Some (kwargs !! kv.1))) named with
  | Some (k, _) =>
      Raise (TypeError
        ("str.format() got multiple values for keyword argument '" ++
         k ++ "'"))
  | None => str_format template (kwargs ∪ list_to_map named)
  end.

(** The same call made while an exception is being handled, as in an
    except clause.  A keyword given twice is refused there too, but the
    interpreter (CPython 3.11) then lets the [KeyError] of the merge of the
    keywords through, with the refused keyword as its argument, where
    outside a handler it raises the [TypeError] of [format_kw]. *)
Definition format_kw_handling (template : string)
    (kwargs : gmap string pyval) (named : list (string * pyval))
    : res string :=
  match find (λ kv, bool_decide (is_Some (kwargs !! kv.1))) named with
  | Some (k, _) => Raise (KeyError k)
  | None => str_format template (kwargs ∪ list_to_map named)
  end.

(** The replacement fields the scanner meets in a format string, up to the
    first place where it stops. *)
Fixpoint fields_from (st : scan) (cs : list ascii) : list string :=
  match cs with
  | [] => []
  | c :: rest =>
      match step st c with
      | Emit st' _ => fields_from st' rest
      | Field name => name :: fields_from InText rest
      | Fail _ | Beyond => []
      end
  end.

Definition template_fields (template : string) : list string :=
  fields_from InText (list_ascii_of_string template).

(** ** The client *)

Record Roam := mk_Roam {
  bot_name : string;
  bot_id : string;
  image_url : string;
  token : string;
  headers : gmap string string;
  base : sender;
  channels : option (list string)
}.

(** What a caller may pass as [channels] to the constructor: Python checks
    no annotation, so any object can arrive. *)
Inductive chan_arg :=
  | ANone
  | AList (l : list string)
  | ATuple (l : list string)
  | AStr (s : string)
  | AInt (n : Z)
  | ASet (X : gset string).

(** Python's sequence types among these: [list], [tuple] and [str]. *)
Definition is_sequence (a : chan_arg) : bool :=
  match a with
  | AList _ | ATuple _ | AStr _ => true
  | _ => false
  end.

Definition default_headers (token : string) : gmap string string :=
  <["Content-Type" := "application/json"]>
  (<["Accept" := "application/json"]>
  (<["Authorization" := "Bearer " ++ token]> ∅)).

(** [Roam.__init__]. *)
Definition __init__ (bot_name bot_id image_url token : string)
    (headers : option (gmap string string)) (channels : chan_arg) : res Roam :=
  let hs := default_headers token in
  let hs := match headers with
            | Some extra => extra ∪ hs
            | None => hs
            end in
  let base := mk_sender bot_id bot_name image_url in
  match channels with
  | AList l => Ret (mk_Roam bot_name bot_id image_url token hs base (Some l))
  | ANone => Ret (mk_Roam bot_name bot_id image_url token hs base None)
  | _ => Raise (ValueError "Channels can only be passed as a list.")
  end.

Section Client.

Variable E : py_env.

(** [requests.request("POST", ...)] and [requests.get(...)]: the request
    leaves the client, then the library returns or raises. *)
Definition requests_post (rq : http_request) : py unit :=
  λ w, (match post_error E rq with
        | None => Ret tt
        | Some e => Raise e
        end,
        mk_world (clock w) (outbox w ++ [rq])).

Definition requests_get_json (rq : http_request) : py json :=
  λ w, (get_json E rq, mk_world (clock w) (outbox w ++ [rq])).

Definition send_url : string := "https://api.ro.am/v1/chat.sendMessage".

Definition no_channel : exn :=
  ValueError "No Channel passed at init or during message building.".

(** [Roam.send_message]. *)
Definition send_message (self : Roam) (message : string)
    (chans : option (list string)) : py unit :=
  recipients <-
    match chans with
    | None => ret (channels self)
    | Some cs =>
        match channels self with
        | Some ds => ret (Some (set_order E (list_to_set (ds ++ cs))))
        | None => raise no_channel
        end
    end ;;
  requests_post
    (mk_request "POST" send_url (headers self)
       (Some (mk_payload (base self) message recipients))).

Definition groups_url : string := "https://api.ro.am/v1/groups.list".
Definition test_url : string := "https://api.ro.am/v1/test".

(** A channel descriptor: the [TypedDict] [RoamGroup] is a plain [dict] at
    run time, here the members of the JSON object it was built from. *)
Definition RoamGroup_t : Type := list (string * json).

(** The call [RoamGroup(channel)], which is [dict(channel)]: it copies a
    dict, fails on what cannot be iterated and on a string that is not
    empty (its one-character items are not key/value pairs), and builds an
    empty dict from an empty string or list.  A list that is not empty is
    read as key/value pairs whose keys need not be strings: left out. *)
Definition RoamGroup (channel : json) : res RoamGroup_t :=
  match channel with
  | JObj members => Ret members
  | JNull | JBool _ | JInt _ | JFloat _ =>
      Raise (TypeError ("'" ++ type_name channel ++
                        "' object is not iterable"))
  | JStr EmptyString => Ret []
  | JStr _ =>
      Raise (ValueError
        "dictionary update sequence element #0 has length 1; 2 is required")
  | JArr [] => Ret []
  | JArr (_ :: _) => Unmodelled
  end.

(** The comprehension [[RoamGroup(channel) for channel in channels]]: the
    first element that fails ends it. *)
Fixpoint RoamGroup_each (channels : list json) : res (list RoamGroup_t) :=
  match channels with
  | [] => Ret []
  | channel :: rest =>
      match RoamGroup channel with
      | Ret g =>
          match RoamGroup_each rest with
          | Ret gs => Ret (g :: gs)
          | Raise e => Raise e
          | Unmodelled => Unmodelled
          end
      | Raise e => Raise e
      | Unmodelled => Unmodelled
      end
  end.

Definition unexpected_response : exn :=
  ValueError "Unexpected Response from Roam Server".

(** [Roam.list_channels]. *)
Definition list_channels (self : Roam) : py (list RoamGroup_t) :=
  decoded <- requests_get_json
               (mk_request "GET" groups_url (headers self) None) ;;
  match decoded with
  | JArr items => lift (RoamGroup_each items)
  | _ => raise unexpected_response
  end.

(** [d.get(key)] on a decoded object: the member's value, or [None]. *)
Fixpoint dict_get (key : string) (members : list (string * json))
    : option json :=
  match members with
  | [] => None
  | (k, v) :: rest => if String.eqb k key then Some v else dict_get key rest
  end.

(** [resp.get("status") == "ok"].  Only a dict has [get]; a string equals
    ["ok"] only if it is that string, and no other JSON value equals it. *)
Definition status_is_ok (resp : json) : res bool :=
  match resp with
  | JObj members =>
      Ret match dict_get "status" members with
          | Some (JStr s) => String.eqb s "ok"
          | _ => false
          end
  | _ =>
      Raise (AttributeError ("'" ++ type_name resp ++
                             "' object has no attribute 'get'"))
  end.

(** [Roam.test_connection]. *)
Definition test_connection (self : Roam) : py bool :=
  resp <- requests_get_json
            (mk_request "GET" test_url (headers self) None) ;;
  lift (status_is_ok resp).

(** A function that can be decorated: its [__name__] and what a call does
    with its positional arguments, its keyword arguments and the world. *)
Record callable := mk_callable {
  fn_name : string;
  fn_body : list pyval → gmap string pyval → py pyval
}.

(** The [except Exception as e] clause of [wrapped]. *)
Definition wrapped_except (self : Roam) (message : string)
    (chans : option (list string)) (func : callable)
    (kwargs : gmap string pyval) (func_start_time : string) (e : exn)
    : py pyval :=
  text <- lift (format_kw_handling message kwargs
                  [("func_start_time", VStr func_start_time);
                   ("func_end_time", VStr "DID NOT COMPLETE");
                   ("func_exception", VExc e);
                   ("func_name", VStr (fn_name func))]) ;;
  _ <- send_message self text chans ;;
  raise e.

(** The closure [wrapped] that the decorator puts in place of [func]. *)
Definition wrapped (self : Roam) (message : string)
    (chans : option (list string)) (message_success : option string)
    (func : callable) (args : list pyval) (kwargs : gmap string pyval)
    : py pyval :=
  func_start_time <- now ;;
  try_except
    (val <- fn_body func args kwargs ;;
     func_end_time <- now ;;
     _ <- match message_success with
          | Some template =>
              text <- lift (format_kw template kwargs
                              [("func_start_time", VStr func_start_time);
                               ("func_end_time", VStr func_end_time);
                               ("func_exception", VStr "DID NOT FAIL");
                               ("func_name", VStr (fn_name func))]) ;;
              send_message self text chans
          | None => ret tt
          end ;;
     ret val)
    (wrapped_except self message chans func kwargs func_start_time).

(** [Roam.notify]: the decorator; [functools.wraps] gives the result the
    name of [func]. *)
Definition notify (self : Roam) (message : string)
    (chans : option (list string)) (message_success : option string)
    (func : callable) : callable :=
  mk_callable (fn_name func)
    (wrapped self message chans message_success func).

End Client.

(** ** Sample clients and environments *)

(** A quiet network: sets are listed in the order of [elements], a POST
    never raises, and every GET decodes to [reply]. *)
Definition env_replying (reply : json) : py_env :=
  mk_env elements (λ _, None) (λ _, Ret reply).

(** A network that is down: every POST raises. *)
Definition connection_refused : exn :=
  mk_exn "ConnectionError" true "connection refused".

Definition env_offline : py_env :=
  mk_env elements (λ _, Some connection_refused)
    (λ _, Raise connection_refused).

Definition world0 : world := mk_world "2023-08-30 14:35:35" [].

(** [Roam("bot", "42", "http://img", "secret", channels=chans)]. *)
Definition client_with (chans : option (list string)) : Roam :=
  mk_Roam "bot" "42" "http://img" "secret" (default_headers "secret")
    (mk_sender "42" "bot" "http://img") chans.

(** The POST that [send_message] builds. *)
Definition post_of (self : Roam) (message : string)
    (recipients : option (list string)) : http_request :=
  mk_request "POST" send_url (headers self)
    (Some (mk_payload (base self) message recipients)).

(** The keywords that [wrapped] adds to the caller's own when it fills a
    template. *)
Definition builtin_names : list string :=
  ["func_start_time"; "func_end_time"; "func_exception"; "func_name"].


(** A function [f] that raises [ValueError("boom")] on every call. *)
Definition f_boom : callable :=
  mk_callable "f" (λ _ _, raise (ValueError "boom")).

(** A function [f] that is interrupted from the keyboard on every call. *)
Definition f_interrupted : callable :=
  mk_callable "f"
    (λ _ _, raise (mk_exn "KeyboardInterrupt" false EmptyString)).

(** A function [f] that returns 1 on every call, four minutes later. *)
Definition f_one : callable :=
  mk_callable "f"
    (λ _ _ w, (Ret (VInt 1), mk_world "2023-08-30 14:39:42" (outbox w))).


(** From [w] to [w'] at most [n] requests were handed to the transport,
    after those of [w], and the clock was left alone. *)
Definition sends_at_most (n : nat) (w w' : world) : Prop :=
  ∃ sent, w' = mk_world (clock w) (outbox w ++ sent) ∧ (length sent ≤ n)%nat.

(** The record [dict()] makes of an object (its members), of an empty
    string and of an empty list (no member). *)
Definition as_record (j : json) : option (list (string * json)) :=
  match j with
  | JObj members => Some members
  | JStr EmptyString => Some []
  | JArr [] => Some []
  | _ => None
  end.


(** * Properties *)

(** ** The monad *)

Lemma env_replying_ok reply : env_ok (env_replying reply).
Proof. intros X. reflexivity. Qed.

Lemma requests_post_world E rq w :
  (requests_post E rq w).2 = mk_world (clock w) (outbox w ++ [rq]).
Proof. reflexivity. Qed.

Lemma requests_post_quiet E rq w :
  post_error E rq = None →
  requests_post E rq w = (Ret tt, mk_world (clock w) (outbox w ++ [rq])).
Proof. intros H. unfold requests_post. by rewrite H. Qed.

(** ** Recipients of a message *)

Lemma set_order_NoDup E (X : gset string) :
  env_ok E → NoDup (set_order E X).
Proof.
  intros HE. rewrite (HE X). apply NoDup_elements.
Qed.

Lemma set_order_elem E (X : gset string) x :
  env_ok E → x ∈ set_order E X ↔ x ∈ X.
Proof.
  intros HE. rewrite (HE X). apply elem_of_elements.
Qed.

(** With defaults [ds] and call-site channels [cs] the request carries the
    listing of the set built from [ds] followed by [cs]. *)
Lemma send_message_both E self message ds cs w :
  channels self = Some ds →
  send_message E self message (Some cs) w =
  requests_post E
    (post_of self message (Some (set_order E (list_to_set (ds ++ cs))))) w.
Proof.
  intros Hds. unfold send_message, bind, ret. by rewrite Hds.
Qed.

Lemma merged_recipients E ds cs :
  env_ok E →
  let rs := set_order E (list_to_set (ds ++ cs)) in
  NoDup rs ∧ ∀ x, x ∈ rs ↔ x ∈ ds ∨ x ∈ cs.
Proof.
  intros HE rs. split.
  - by apply set_order_NoDup.
  - intros x. unfold rs. rewrite set_order_elem by done.
    rewrite elem_of_list_to_set. apply elem_of_app.
Qed.

(** C2 (the code departs from it): with call-site channels and no default
    channels, [send_message] raises the [ValueError] whose text says that no
    channel was passed, and hands no request to the transport; the claim
    has it send to the call-site channels as given. *)
Theorem send_message_call_site_only_raises
    E name id img tok hs b message cs w :
  send_message E (mk_Roam name id img tok hs b None) message (Some cs) w =
  (Raise no_channel, w).
Proof. reflexivity. Qed.

(** C3 (the code departs from it): with neither call-site nor default
    channels, [send_message] raises nothing of its own and posts a payload
    whose [recipients] is [None]; the claim has it fail before any network
    call. *)
Theorem send_message_no_channels_posts
    E name id img tok hs b message w :
  let self := mk_Roam name id img tok hs b None in
  let rq := post_of self message None in
  send_message E self message None w =
  (match post_error E rq with
   | None => Ret tt
   | Some e => Raise e
   end,
   mk_world (clock w) (outbox w ++ [rq])).
Proof. reflexivity. Qed.

(** C5: when both the default channels [ds] and the call-site channels [cs]
    are given, the payload's recipients are the union of the two lists as a
    set: no element twice, and exactly the elements of [ds] or [cs], in
    whatever order the set is listed. *)
Theorem send_message_recipients_union E self message ds cs w :
  env_ok E →
  channels self = Some ds →
  ∃ rs,
    send_message E self message (Some cs) w =
      requests_post E (post_of self message (Some rs)) w
    ∧ NoDup rs
    ∧ ∀ x, x ∈ rs ↔ x ∈ ds ∨ x ∈ cs.
Proof.
  intros HE Hds. eexists. split.
  - by apply send_message_both.
  - by apply merged_recipients.
Qed.

(** The example of C5: defaults [a, b] and call-site [b, c] give the
    recipients [a], [b], [c], each once. *)
Lemma send_message_recipients_union_witness :
  ∃ rs,
    send_message (env_replying JNull) (client_with (Some ["a"; "b"])) "hi"
      (Some ["b"; "c"]) world0 =
      requests_post (env_replying JNull)
        (post_of (client_with (Some ["a"; "b"])) "hi" (Some rs)) world0
    ∧ NoDup rs
    ∧ ∀ x, x ∈ rs ↔ x ∈ ["a"; "b"] ∨ x ∈ ["b"; "c"].
Proof.
  apply (send_message_recipients_union (env_replying JNull)
           (client_with (Some ["a"; "b"])) "hi" ["a"; "b"] ["b"; "c"] world0).
  - apply env_replying_ok.
  - reflexivity.
Defined.

(** C10: a client built with [channels=[]] has defaults (the empty list, not
    [None]); a send with call-site channels [cs] then raises no error of its
    own: it posts (and returns when the transport does) with recipients
    that are exactly the elements of [cs], each once. *)
Theorem empty_defaults_are_defaults E name id img tok hs message cs w :
  env_ok E →
  ∃ self rs,
    __init__ name id img tok hs (AList []) = Ret self
    ∧ channels self = Some []
    ∧ send_message E self message (Some cs) w =
        requests_post E (post_of self message (Some rs)) w
    ∧ (post_error E (post_of self message (Some rs)) = None →
       (send_message E self message (Some cs) w).1 = Ret tt)
    ∧ NoDup rs
    ∧ ∀ x, x ∈ rs ↔ x ∈ cs.
Proof.
  intros HE.
  destruct (merged_recipients E [] cs HE) as [Hnd Hin].
  eexists _, _. split; [reflexivity|]. split; [reflexivity|].
  split; [by apply send_message_both|].
  split; [|split; [exact Hnd|]].
  - intros Hq. erewrite send_message_both by reflexivity.
    by rewrite requests_post_quiet.
  - intros x. rewrite Hin. rewrite elem_of_nil. tauto.
Qed.

Lemma empty_defaults_are_defaults_witness :
  ∃ self rs,
    __init__ "bot" "42" "http://img" "secret" None (AList []) = Ret self
    ∧ channels self = Some []
    ∧ send_message (env_replying JNull) self "hi" (Some ["x"; "y"; "x"])
        world0 =
        requests_post (env_replying JNull)
          (post_of self "hi" (Some rs)) world0
    ∧ (post_error (env_replying JNull) (post_of self "hi" (Some rs)) = None →
       (send_message (env_replying JNull) self "hi" (Some ["x"; "y"; "x"])
          world0).1 = Ret tt)
    ∧ NoDup rs
    ∧ ∀ x, x ∈ rs ↔ x ∈ ["x"; "y"; "x"].
Proof.
  apply (empty_defaults_are_defaults (env_replying JNull)
           "bot" "42" "http://img" "secret" None "hi" ["x"; "y"; "x"] world0).
  apply env_replying_ok.
Defined.

(** ** The constructor *)

(** C6, as stated, fails: a tuple is a sequence, and the constructor
    refuses it. *)
Lemma init_refuses_tuple :
  is_sequence (ATuple ["a"; "b"]) = true
  ∧ __init__ "bot" "42" "http://img" "secret" None (ATuple ["a"; "b"]) =
    Raise (ValueError "Channels can only be passed as a list.").
Proof. split; reflexivity. Qed.

(** C6, amended: the constructor accepts a list (the defaults are that
    list) and [None] (no defaults), and raises [ValueError] on every other
    value, the other sequence types included. *)
Theorem init_channels_list_or_none name id img tok hs (c : chan_arg) :
  match c with
  | AList l =>
      ∃ self, __init__ name id img tok hs c = Ret self
              ∧ channels self = Some l
  | ANone =>
      ∃ self, __init__ name id img tok hs c = Ret self
              ∧ channels self = None
  | _ =>
      __init__ name id img tok hs c =
      Raise (ValueError "Channels can only be passed as a list.")
  end.
Proof.
  destruct c; simpl; eauto.
Qed.

(** ** Listing channels and probing the connection *)

Lemma RoamGroup_each_objects (objs : list RoamGroup_t) :
  RoamGroup_each (JObj <$> objs) = Ret objs.
Proof.
  induction objs as [|g objs IH]; [done|].
  rewrite fmap_cons. cbn [RoamGroup_each RoamGroup]. by rewrite IH.
Qed.

Lemma RoamGroup_each_length items groups :
  RoamGroup_each items = Ret groups → length groups = length items.
Proof.
  revert groups. induction items as [|j items IH]; intros groups; simpl.
  - by intros [= <-].
  - destruct (RoamGroup j); try done.
    destruct (RoamGroup_each items) as [gs| |]; try done.
    intros [= <-]. simpl. f_equal. by apply IH.
Qed.

(** Whatever the elements are, a listing that returns has one record per
    element. *)
Lemma list_channels_one_record_each E self w items groups :
  get_json E (mk_request "GET" groups_url (headers self) None)
    = Ret (JArr items) →
  (list_channels E self w).1 = Ret groups →
  length groups = length items.
Proof.
  intros Hget. unfold list_channels, bind, requests_get_json, lift.
  rewrite Hget. cbn [fst]. apply RoamGroup_each_length.
Qed.

(** A body that decodes to something other than an object has no [get]:
    the probe raises [AttributeError]. *)
Lemma test_connection_not_an_object E self w body :
  get_json E (mk_request "GET" test_url (headers self) None) = Ret body →
  (∀ members, body ≠ JObj members) →
  ∃ msg, (test_connection E self w).1 = Raise (AttributeError msg).
Proof.
  intros Hget Hno. unfold test_connection, bind, requests_get_json, lift.
  rewrite Hget. cbn [fst].
  destruct body; try (by eexists). by destruct (Hno members).
Qed.

(** C8, as stated, fails: the body [[1]] is a sequence, and [list_channels]
    raises [TypeError] instead of returning one record. *)
Lemma list_channels_refuses_number_element :
  (list_channels (env_replying (JArr [JInt 1])) (client_with None) world0).1
  = Raise (TypeError "'int' object is not iterable").
Proof. reflexivity. Qed.

(** C8, amended: [list_channels] raises [ValueError] when the decoded body
    is not a list; when it is a list of objects it returns one record per
    element, in order, each with the members of its object as they are. *)
Theorem list_channels_shape E self w body :
  get_json E (mk_request "GET" groups_url (headers self) None) = Ret body →
  ((∀ items, body ≠ JArr items) →
   (list_channels E self w).1 = Raise unexpected_response)
  ∧ (∀ objs, body = JArr (JObj <$> objs) →
     (list_channels E self w).1 = Ret objs
     ∧ length objs = length (JObj <$> objs)).
Proof.
  intros Hget. unfold list_channels, bind, requests_get_json.
  rewrite Hget. split.
  - intros Hno. destruct body; try done. by destruct (Hno items).
  - intros objs ->. unfold lift. cbn [fst].
    by rewrite RoamGroup_each_objects, length_fmap.
Qed.

(** The examples of C8: a body of two objects gives two records with the
    same members, and the body [{"error": "x"}] fails. *)
Lemma list_channels_shape_witness :
  (list_channels
     (env_replying
        (JArr [JObj [("addressId", JStr "A1"); ("roamId", JInt 7)];
               JObj [("addressId", JStr "A2"); ("surprise", JNull)]]))
     (client_with None) world0).1
  = Ret [[("addressId", JStr "A1"); ("roamId", JInt 7)];
         [("addressId", JStr "A2"); ("surprise", JNull)]]
  ∧ (list_channels (env_replying (JObj [("error", JStr "x")]))
       (client_with None) world0).1
    = Raise unexpected_response.
Proof.
  split.
  - apply (proj2 (list_channels_shape
                    (env_replying
                       (JArr (JObj <$>
                          [[("addressId", JStr "A1"); ("roamId", JInt 7)];
                           [("addressId", JStr "A2"); ("surprise", JNull)]])))
                    (client_with None) world0 _ eq_refl)
             [[("addressId", JStr "A1"); ("roamId", JInt 7)];
              [("addressId", JStr "A2"); ("surprise", JNull)]]
             eq_refl).
  - apply (proj1 (list_channels_shape
                    (env_replying (JObj [("error", JStr "x")]))
                    (client_with None) world0 _ eq_refl)).
    intros items. discriminate.
Defined.

(** C9, as stated, fails: the bodies [[]] and ["ok"] are decoded JSON
    bodies without a [status] member, and [test_connection] raises
    [AttributeError] on them instead of returning [False]. *)
Lemma test_connection_raises_on_non_object :
  (test_connection (env_replying (JArr [])) (client_with None) world0).1
    = Raise (AttributeError "'list' object has no attribute 'get'")
  ∧ (test_connection (env_replying (JStr "ok")) (client_with None) world0).1
    = Raise (AttributeError "'str' object has no attribute 'get'").
Proof. split; reflexivity. Qed.

(** C9, amended: on a body that decodes to an object, [test_connection]
    returns a boolean, and it is [True] exactly when the object has a
    member [status] whose value is the string [ok]; any other value of
    [status], and an object without it, give [False]. *)
Theorem test_connection_true_iff_status_ok E self w members :
  get_json E (mk_request "GET" test_url (headers self) None)
    = Ret (JObj members) →
  ∃ b, (test_connection E self w).1 = Ret b
       ∧ (b = true ↔ dict_get "status" members = Some (JStr "ok")).
Proof.
  intros Hget. unfold test_connection, bind, requests_get_json, lift.
  rewrite Hget. simpl. eexists. split; [reflexivity|].
  destruct (dict_get "status" members) as [[| | | |s| |]|]; try done.
  rewrite String.eqb_eq. split; [by intros ->|by intros [= ->]].
Qed.

(** The examples of C9: [{"status": "ok"}] gives [True]; [{"status":
    "fail"}] and [{}] give [False]. *)
Lemma test_connection_true_iff_status_ok_witness :
  (∃ b, (test_connection (env_replying (JObj [("status", JStr "ok")]))
           (client_with None) world0).1 = Ret b
        ∧ (b = true ↔
           dict_get "status" [("status", JStr "ok")] = Some (JStr "ok")))
  ∧ (test_connection (env_replying (JObj [("status", JStr "ok")]))
       (client_with None) world0).1 = Ret true
  ∧ (test_connection (env_replying (JObj [("status", JStr "fail")]))
       (client_with None) world0).1 = Ret false
  ∧ (test_connection (env_replying (JObj []))
       (client_with None) world0).1 = Ret false.
Proof.
  split; [|repeat split; reflexivity].
  apply (test_connection_true_iff_status_ok
           (env_replying (JObj [("status", JStr "ok")]))
           (client_with None) world0 [("status", JStr "ok")]).
  reflexivity.
Defined.

(** ** Filling a template *)

Lemma get_field_modelled ctx name : get_field ctx name ≠ Unmodelled.
Proof.
  unfold get_field. destruct name; [done|].
  destruct (get_integer _ _); try done. by destruct (ctx !! _).
Qed.


Lemma get_field_missing (ctx : gmap string pyval) name :
  ctx !! name = None → ∃ e, get_field ctx name = Raise e.
Proof.
  intros Hno. unfold get_field. destruct name; [by eexists|].
  destruct (get_integer _ _); rewrite ?Hno; by eexists.
Qed.



(** Inside a handler the call fills the same templates with the same
    text; only the exception of a repeated keyword differs. *)
Lemma format_kw_handling_ret template kwargs named text :
  format_kw template kwargs named = Ret text →
  format_kw_handling template kwargs named = Ret text.
Proof.
  unfold format_kw, format_kw_handling.
  by destruct (find _ named) as [[k v]|].
Qed.

Lemma format_kw_handling_free template kwargs named :
  (∀ k, k ∈ named.*1 → kwargs !! k = None) →
  format_kw_handling template kwargs named
  = str_format template (kwargs ∪ list_to_map named).
Proof.
  intros Hfree. unfold format_kw_handling.
  destruct (find _ named) as [[k v]|] eqn:Hfind; [|done].
  apply find_some in Hfind as [Hin Hk]. cbn in Hk.
  apply bool_decide_eq_true in Hk as [x Hx].
  rewrite Hfree in Hx; [done|].
  apply list_elem_of_fmap. exists (k, v). split; [done|].
  by apply list_elem_of_In.
Qed.

(** The refused keyword is the first of the added ones that the caller
    also gave. *)
Lemma format_kw_handling_clash template kwargs named k :
  k ∈ named.*1 →
  is_Some (kwargs !! k) →
  ∃ k', k' ∈ named.*1 ∧ is_Some (kwargs !! k')
        ∧ format_kw_handling template kwargs named = Raise (KeyError k').
Proof.
  intros Hk Hkw. unfold format_kw_handling.
  destruct (find _ named) as [[k' v']|] eqn:Hfind.
  - apply find_some in Hfind as [Hin Hk']. cbn in Hk'.
    apply bool_decide_eq_true in Hk'. exists k'. split; [|done].
    apply list_elem_of_fmap. exists (k', v'). split; [done|].
    by apply list_elem_of_In.
  - apply list_elem_of_fmap in Hk as ([k0 v0] & -> & Hin).
    apply list_elem_of_In in Hin.
    apply (find_none _ _ Hfind) in Hin. cbn in Hin.
    by apply bool_decide_eq_false in Hin.
Qed.

Lemma get_field_raises_class ctx name e :
  get_field ctx name = Raise e →
  exc_class e ∈ ["KeyError"; "IndexError"; "ValueError"].
Proof.
  unfold get_field. destruct name.
  - intros [= <-]. set_solver.
  - destruct (get_integer _ _).
    + destruct (ctx !! _); [done|]. intros [= <-]. set_solver.
    + intros [= <-]. set_solver.
    + intros [= <-]. set_solver.
Qed.

Lemma render_missing_class ctx p cs :
  ctx !! p = None →
  ∀ st out, p ∈ fields_from st cs →
  ∃ e, render ctx st out cs = Raise e
       ∧ exc_class e ∈ ["KeyError"; "IndexError"; "ValueError"].
Proof.
  intros Hno. induction cs as [|c cs IH]; intros st out; simpl.
  - by intros ?%elem_of_nil.
  - destruct (step st c) as [st' text|name|e|].
    + apply IH.
    + intros Hin. destruct (get_field ctx name) as [text|e|] eqn:Hget.
      * apply elem_of_cons in Hin as [->|Hin]; [|by apply IH].
        destruct (get_field_missing ctx name Hno) as [e He]. congruence.
      * exists e. split; [done|]. by eapply get_field_raises_class.
      * by destruct (get_field_modelled ctx name).
    + by intros ?%elem_of_nil.
    + by intros ?%elem_of_nil.
Qed.

(** ** The decorator *)

(** A send that returns has handed exactly one request to the transport:
    the POST of the message. *)
Lemma send_message_returns E self text chans w w' :
  send_message E self text chans w = (Ret tt, w') →
  ∃ recipients,
    w' = mk_world (clock w) (outbox w ++ [post_of self text recipients]).
Proof.
  unfold send_message, bind, ret, raise.
  destruct chans as [cs|]; [destruct (channels self) as [ds|]|];
    try done; intros [= _ <-]; by eexists.
Qed.

(** The except clause never returns a value. *)
Lemma wrapped_except_no_value E self message chans func kwargs t0 e w v :
  (wrapped_except E self message chans func kwargs t0 e w).1 ≠ Ret v.
Proof.
  unfold wrapped_except, bind, lift, raise.
  destruct (format_kw_handling _ _ _); try done.
  by destruct (send_message _ _ _ _ _) as [[[]| |] ?].
Qed.

(** X19: a failure template that cannot be filled.  When the function
    raises, no keyword argument is named like a built-in variable, and the
    failure template names a variable [p] that is neither a keyword
    argument of the call nor built in, then [str.format] raises on the
    template (a [KeyError], [IndexError] or [ValueError]), and that
    exception of the formatter is what the decorated call raises, in place
    of the function's; nothing is sent. *)
Theorem notify_failure_unfillable
    E self message chans message_success func args kwargs w e w1 p :
  fn_body func args kwargs w = (Raise e, w1) →
  exc_is_Exception e = true →
  (∀ k, k ∈ builtin_names → kwargs !! k = None) →
  p ∈ template_fields message →
  kwargs !! p = None →
  p ∉ builtin_names →
  ∃ e',
    str_format message
      (kwargs ∪ list_to_map
         [("func_start_time", VStr (clock w));
          ("func_end_time", VStr "DID NOT COMPLETE");
          ("func_exception", VExc e);
          ("func_name", VStr (fn_name func))]) = Raise e'
    ∧ exc_class e' ∈ ["KeyError"; "IndexError"; "ValueError"]
    ∧ fn_body (notify E self message chans message_success func)
        args kwargs w = (Raise e', w1).
Proof.
  intros Hf He Hfree Hin Hkw Hbuiltin.
  destruct (render_missing_class
              (kwargs ∪ list_to_map
                 [("func_start_time", VStr (clock w));
                  ("func_end_time", VStr "DID NOT COMPLETE");
                  ("func_exception", VExc e);
                  ("func_name", VStr (fn_name func))])
              p (list_ascii_of_string message))
    with (st := InText) (out := EmptyString) as (e' & Hfmt & Hclass).
  { apply lookup_union_None. split; [done|].
    by apply not_elem_of_list_to_map_1. }
  { exact Hin. }
  exists e'. split; [exact Hfmt|]. split; [exact Hclass|].
  cbn [notify fn_body]. unfold wrapped, bind, now, try_except.
  rewrite Hf, He. unfold wrapped_except, bind, lift.
  rewrite format_kw_handling_free by exact Hfree.
  unfold str_format in *. by rewrite Hfmt.
Qed.

(** An exception of the decorated function that does not derive from
    [Exception] passes through the decorator: nothing is formatted or
    sent. *)
Lemma notify_base_exception_passes
    E self message chans message_success func args kwargs w e w1 :
  fn_body func args kwargs w = (Raise e, w1) →
  exc_is_Exception e = false →
  fn_body (notify E self message chans message_success func) args kwargs w
  = (Raise e, w1).
Proof.
  intros Hf He. cbn [notify fn_body].
  unfold wrapped, bind, now, try_except. by rewrite Hf, He.
Qed.

(** C1, as stated, fails.  [f(table="T")] raises [ValueError("boom")];
    when the failure template names a variable that is neither a keyword
    argument nor built in, the decorated call raises the [KeyError] of the
    formatter in place of the original exception, with nothing sent; when
    the transport raises, its exception takes the place of the original
    one.  And a [KeyboardInterrupt] in [f] passes through with nothing
    sent. *)
Lemma notify_failure_not_always_notified :
  let self := client_with (Some ["c"]) in
  fn_body f_boom [] {["table" := VStr "T"]} world0
    = (Raise (ValueError "boom"), world0)
  ∧ fn_body
      (notify (env_replying JNull) self
         "{func_name}:{rows}:{func_exception}" None None f_boom)
      [] {["table" := VStr "T"]} world0
    = (Raise (KeyError "rows"), world0)
  ∧ fn_body
      (notify env_offline self
         "{func_name}:{table}:{func_exception}" None None f_boom)
      [] {["table" := VStr "T"]} world0
    = (Raise connection_refused,
       mk_world (clock world0) [post_of self "f:T:boom" (Some ["c"])])
  ∧ fn_body
      (notify (env_replying JNull) self
         "{func_name}:{func_exception}" None None f_interrupted)
      [] ∅ world0
    = (Raise (mk_exn "KeyboardInterrupt" false EmptyString), world0).
Proof. repeat split; reflexivity. Qed.

(** C1, amended: when the decorated function raises an exception [e] that
    derives from [Exception], the failure template can be filled from the
    keyword arguments of the call and the built-in variables (name, start
    time, end time [DID NOT COMPLETE], the exception) and [send_message]
    returns on that text and the decorator's channels, then that message is
    the one request sent and [e] itself is raised again. *)
Theorem notify_failure_sends_and_reraises
    E self message chans message_success func args kwargs w e w1 text w2 :
  fn_body func args kwargs w = (Raise e, w1) →
  exc_is_Exception e = true →
  format_kw message kwargs
    [("func_start_time", VStr (clock w));
     ("func_end_time", VStr "DID NOT COMPLETE");
     ("func_exception", VExc e);
     ("func_name", VStr (fn_name func))] = Ret text →
  send_message E self text chans w1 = (Ret tt, w2) →
  fn_body (notify E self message chans message_success func) args kwargs w
    = (Raise e, w2)
  ∧ ∃ recipients,
      w2 = mk_world (clock w1)
             (outbox w1 ++ [post_of self text recipients]).
Proof.
  intros Hf He Hfmt Hsend. split; [|by eapply send_message_returns].
  cbn [notify fn_body]. unfold wrapped, bind, now, try_except.
  rewrite Hf, He. unfold wrapped_except, bind, lift.
  by rewrite (format_kw_handling_ret _ _ _ _ Hfmt), Hsend.
Qed.

(** The example of C1: [f(table="T")] raising [ValueError("boom")] under
    the template [{func_name}:{table}:{func_exception}] sends [f:T:boom]
    and raises [ValueError("boom")]. *)
Lemma notify_failure_sends_and_reraises_witness :
  let self := client_with (Some ["c"]) in
  let w2 := mk_world (clock world0) [post_of self "f:T:boom" (Some ["c"])] in
  fn_body
    (notify (env_replying JNull) self
       "{func_name}:{table}:{func_exception}" None None f_boom)
    [] {["table" := VStr "T"]} world0
    = (Raise (ValueError "boom"), w2)
  ∧ ∃ recipients,
      w2 = mk_world (clock world0)
             (outbox world0 ++ [post_of self "f:T:boom" recipients]).
Proof.
  intros self w2.
  apply (notify_failure_sends_and_reraises (env_replying JNull) self
           "{func_name}:{table}:{func_exception}" None None f_boom
           [] {["table" := VStr "T"]} world0 (ValueError "boom") world0
           "f:T:boom" w2); reflexivity.
Defined.

(** C4, as stated, fails.  [f()] returns 1; when the success template
    names a variable that the call does not supply, the decorated call
    sends the failure message and raises the formatter's [KeyError] instead
    of returning 1; when the transport raises, the decorated call raises
    its exception instead of returning 1. *)
Lemma notify_success_value_lost :
  let self := client_with (Some ["c"]) in
  fn_body f_one [] ∅ world0
    = (Ret (VInt 1), mk_world "2023-08-30 14:39:42" [])
  ∧ fn_body
      (notify (env_replying JNull) self "failed: {func_exception}" None
         (Some "{rows} rows at {func_end_time}") f_one)
      [] ∅ world0
    = (Raise (KeyError "rows"),
       mk_world "2023-08-30 14:39:42"
         [post_of self "failed: 'rows'" (Some ["c"])])
  ∧ fn_body
      (notify env_offline self "failed: {func_exception}" None
         (Some "done: {func_exception}") f_one)
      [] ∅ world0
    = (Raise connection_refused,
       mk_world "2023-08-30 14:39:42"
         [post_of self "done: DID NOT FAIL" (Some ["c"]);
          post_of self "failed: connection refused" (Some ["c"])]).
Proof. repeat split; reflexivity. Qed.

(** C4, amended: when the decorated function returns [v], then without a
    success template the decorated call returns [v] and sends nothing; with
    one, if the template can be filled from the keyword arguments and the
    built-in variables, the exception variable being the string
    [DID NOT FAIL], and [send_message] returns on that text and the
    decorator's channels, the decorated call sends that message and
    returns [v]. *)
Theorem notify_success_sends_and_returns
    E self message chans message_success func args kwargs w v w1 :
  fn_body func args kwargs w = (Ret v, w1) →
  match message_success with
  | None =>
      fn_body (notify E self message chans None func) args kwargs w
      = (Ret v, w1)
  | Some template =>
      ∀ text w2,
        format_kw template kwargs
          [("func_start_time", VStr (clock w));
           ("func_end_time", VStr (clock w1));
           ("func_exception", VStr "DID NOT FAIL");
           ("func_name", VStr (fn_name func))] = Ret text →
        send_message E self text chans w1 = (Ret tt, w2) →
        fn_body (notify E self message chans (Some template) func)
          args kwargs w
        = (Ret v, w2)
        ∧ ∃ recipients,
            w2 = mk_world (clock w1)
                   (outbox w1 ++ [post_of self text recipients])
  end.
Proof.
  intros Hf. destruct message_success as [template|].
  - intros text w2 Hfmt Hsend. split; [|by eapply send_message_returns].
    cbn [notify fn_body]. unfold wrapped, bind, now, try_except, lift.
    rewrite Hf. cbn [clock]. by rewrite Hfmt, Hsend.
  - cbn [notify fn_body]. unfold wrapped, bind, now, try_except.
    by rewrite Hf.
Qed.

(** The example of C4: a success template that names [func_exception]
    sends a message holding [DID NOT FAIL], and 1 is returned. *)
Lemma notify_success_sends_and_returns_witness :
  let self := client_with (Some ["c"]) in
  let w2 := mk_world "2023-08-30 14:39:42"
              [post_of self "f: DID NOT FAIL" (Some ["c"])] in
  fn_body
    (notify (env_replying JNull) self "failed"
       None (Some "{func_name}: {func_exception}") f_one)
    [] ∅ world0
  = (Ret (VInt 1), w2)
  ∧ ∃ recipients,
      w2 = mk_world "2023-08-30 14:39:42"
             ([] ++ [post_of self "f: DID NOT FAIL" recipients]).
Proof.
  intros self w2.
  apply (notify_success_sends_and_returns (env_replying JNull) self "failed"
           None (Some "{func_name}: {func_exception}") f_one [] ∅ world0
           (VInt 1) (mk_world "2023-08-30 14:39:42" []) eq_refl
           "f: DID NOT FAIL" w2); reflexivity.
Defined.



(** * Further properties of the client *)

(** ** Headers *)

Lemma default_headers_lookup tok :
  default_headers tok !! "Content-Type" = Some "application/json"
  ∧ default_headers tok !! "Accept" = Some "application/json"
  ∧ default_headers tok !! "Authorization" = Some ("Bearer " ++ tok).
Proof. repeat split; reflexivity. Qed.

Lemma init_headers name id img tok hs c self :
  __init__ name id img tok hs c = Ret self →
  headers self = match hs with
                 | Some extra => extra ∪ default_headers tok
                 | None => default_headers tok
                 end.
Proof. destruct c; try done; by intros [= <-]. Qed.

(** X1: a constructed client has the caller's headers on top of the three
    standard ones: a header the caller gave has the caller's value, and any
    other header is as in the standard ones, so [Content-Type], [Accept]
    and the bearer [Authorization] are there unless overridden. *)
Theorem init_headers_override name id img tok extra c self :
  __init__ name id img tok (Some extra) c = Ret self →
  (∀ k v, extra !! k = Some v → headers self !! k = Some v)
  ∧ (∀ k, extra !! k = None →
       headers self !! k = default_headers tok !! k)
  ∧ (extra !! "Authorization" = None →
       headers self !! "Authorization" = Some ("Bearer " ++ tok)).
Proof.
  intros Hinit. rewrite (init_headers _ _ _ _ _ _ _ Hinit).
  split; [|split].
  - intros k v Hk. by apply lookup_union_Some_l.
  - intros k Hk. by apply lookup_union_r.
  - intros Hk. rewrite lookup_union_r by done.
    apply default_headers_lookup.
Qed.

Lemma init_headers_override_witness :
  let extra : gmap string string :=
    {["Accept" := "text/plain"; "X-Trace" := "1"]} in
  let self :=
    mk_Roam "bot" "42" "http://img" "secret"
      (extra ∪ default_headers "secret")
      (mk_sender "42" "bot" "http://img") None in
  (∀ k v, extra !! k = Some v → headers self !! k = Some v)
  ∧ (∀ k, extra !! k = None →
       headers self !! k = default_headers "secret" !! k)
  ∧ (extra !! "Authorization" = None →
       headers self !! "Authorization" = Some ("Bearer " ++ "secret")).
Proof.
  intros extra self.
  apply (init_headers_override "bot" "42" "http://img" "secret" extra ANone
           self).
  reflexivity.
Defined.

(** ** What a send does to the world *)

(** A send either stops at the check of the channels, with the world as it
    was, or hands one POST to the transport. *)
Lemma send_message_cases E self message chans w :
  (send_message E self message chans w = (Raise no_channel, w)
   ∧ chans ≠ None ∧ channels self = None)
  ∨ ∃ recipients,
      send_message E self message chans w
      = requests_post E (post_of self message recipients) w
      ∧ ¬ (chans ≠ None ∧ channels self = None).
Proof.
  unfold send_message, bind, ret, raise.
  destruct chans as [cs|]; [destruct (channels self) as [ds|] eqn:Hds|].
  - right. eexists. split; [reflexivity|]. by intros [_ ?].
  - left. done.
  - right. eexists. split; [reflexivity|]. by intros [? _].
Qed.

(** X2: a send hands at most one request to the transport, after those
    already sent, and leaves the clock alone; it hands none exactly when
    call-site channels are given and the client has no defaults. *)
Theorem send_message_at_most_one_request E self message chans w :
  ∃ sent,
    outbox (send_message E self message chans w).2 = (outbox w ++ sent)%list
    ∧ (length sent ≤ 1)%nat
    ∧ clock (send_message E self message chans w).2 = clock w
    ∧ (sent = [] ↔ chans ≠ None ∧ channels self = None).
Proof.
  destruct (send_message_cases E self message chans w)
    as [(-> & Hc & Hd)|(rs & -> & Hno)].
  - exists []. cbn [snd]. rewrite app_nil_r. repeat split; auto.
  - exists [post_of self message rs]. cbn. repeat split; auto.
    + discriminate.
    + by intros [? ?]; destruct Hno.
Qed.

(** X3: when a send raises, either it is the client's own [ValueError]
    (call-site channels without defaults) and nothing was sent, or it is the
    exception the transport raised on the one POST of the message. *)
Theorem send_message_raises_only E self message chans w e w' :
  send_message E self message chans w = (Raise e, w') →
  (e = no_channel ∧ w' = w ∧ chans ≠ None ∧ channels self = None)
  ∨ ∃ recipients,
      post_error E (post_of self message recipients) = Some e
      ∧ w' = mk_world (clock w)
               (outbox w ++ [post_of self message recipients]).
Proof.
  intros Hsend.
  destruct (send_message_cases E self message chans w)
    as [(Heq & Hc & Hd)|(rs & Heq & _)]; rewrite Heq in Hsend.
  - left. by injection Hsend as <- <-.
  - right. exists rs. unfold requests_post in Hsend.
    destruct (post_error E _) as [e'|]; [|done].
    by injection Hsend as <- <-.
Qed.

Lemma send_message_raises_only_witness :
  let self := client_with (Some ["c"]) in
  let w' := mk_world (clock world0) [post_of self "hi" (Some ["c"])] in
  (connection_refused = no_channel ∧ w' = world0
   ∧ (None : option (list string)) ≠ None ∧ channels self = None)
  ∨ ∃ recipients,
      post_error env_offline (post_of self "hi" recipients)
        = Some connection_refused
      ∧ w' = mk_world (clock world0)
               (outbox world0 ++ [post_of self "hi" recipients]).
Proof.
  intros self w'.
  apply (send_message_raises_only env_offline self "hi" None world0
           connection_refused w').
  reflexivity.
Defined.

(** X4: a client built with a list of channels and no extra headers, sending
    with no call-site channels, posts one request: a POST to the send
    endpoint, with the standard headers, whose payload holds the bot's id,
    name and image, the text, and the default channels as they were given
    (same order, duplicates kept). *)
Theorem init_then_send_default E name id img tok ds message w :
  ∃ self,
    __init__ name id img tok None (AList ds) = Ret self
    ∧ (send_message E self message None w).2
      = mk_world (clock w)
          (outbox w ++
           [mk_request "POST" "https://api.ro.am/v1/chat.sendMessage"
              (default_headers tok)
              (Some (mk_payload (mk_sender id name img) message
                       (Some ds)))]).
Proof. eexists. split; reflexivity. Qed.

(** X5: empty channel lists are sent as they are: with defaults [[]] and
    call-site channels [[]] (or none) the request goes out with an empty
    list of recipients, and the client raises nothing of its own. *)
Theorem send_message_empty_recipients E self message w :
  env_ok E →
  channels self = Some [] →
  send_message E self message (Some []) w
    = requests_post E (post_of self message (Some [])) w
  ∧ send_message E self message None w
    = requests_post E (post_of self message (Some [])) w.
Proof.
  intros HE Hds. split.
  - rewrite (send_message_both E self message [] [] w Hds).
    assert (set_order E (list_to_set ([] ++ [])) = []) as ->; [|done].
    apply Permutation_nil_r. rewrite (HE _). cbn.
    by rewrite elements_empty.
  - unfold send_message, bind, ret. by rewrite Hds.
Qed.

Lemma send_message_empty_recipients_witness :
  send_message (env_replying JNull) (client_with (Some [])) "hi" (Some [])
    world0
    = requests_post (env_replying JNull)
        (post_of (client_with (Some [])) "hi" (Some [])) world0
  ∧ send_message (env_replying JNull) (client_with (Some [])) "hi" None
      world0
    = requests_post (env_replying JNull)
        (post_of (client_with (Some [])) "hi" (Some [])) world0.
Proof.
  apply (send_message_empty_recipients (env_replying JNull)
           (client_with (Some [])) "hi" world0).
  - apply env_replying_ok.
  - reflexivity.
Defined.

(** ** Listing and probing: requests and errors *)

Lemma RoamGroup_each_first_refused objs bad rest e :
  RoamGroup bad = Raise e →
  RoamGroup_each ((JObj <$> objs) ++ bad :: rest) = Raise e.
Proof.
  intros Hbad. induction objs as [|g objs IH].
  - cbn [fmap list_fmap app RoamGroup_each]. by rewrite Hbad.
  - rewrite fmap_cons. cbn [app RoamGroup_each RoamGroup]. by rewrite IH.
Qed.

(** X6: when the listing is a list whose first element that is not an
    object is one that [dict()] refuses (a number, a boolean, [null], a
    string that is not empty), [list_channels] raises that element's error,
    whatever comes after it: no record is returned, not even for the
    objects before it. *)
Theorem list_channels_first_refused E self w objs bad rest e :
  get_json E (mk_request "GET" groups_url (headers self) None)
    = Ret (JArr ((JObj <$> objs) ++ bad :: rest)) →
  RoamGroup bad = Raise e →
  (list_channels E self w).1 = Raise e.
Proof.
  intros Hget Hbad. unfold list_channels, bind, requests_get_json, lift.
  rewrite Hget. cbn [fst]. by apply RoamGroup_each_first_refused.
Qed.

Lemma list_channels_first_refused_witness :
  (list_channels
     (env_replying
        (JArr ((JObj <$> [[("addressId", JStr "A1")]])
               ++ JStr "oops" :: [JObj [("addressId", JStr "A2")]])))
     (client_with None) world0).1
  = Raise (ValueError
      "dictionary update sequence element #0 has length 1; 2 is required").
Proof.
  apply (list_channels_first_refused
           (env_replying
              (JArr ((JObj <$> [[("addressId", JStr "A1")]])
                     ++ JStr "oops" :: [JObj [("addressId", JStr "A2")]])))
           (client_with None) world0 [[("addressId", JStr "A1")]]
           (JStr "oops") [JObj [("addressId", JStr "A2")]]);
    reflexivity.
Defined.

Lemma RoamGroup_each_records items groups :
  Forall2 (λ j g, as_record j = Some g) items groups →
  RoamGroup_each items = Ret groups.
Proof.
  induction 1 as [|j g items groups Hj _ IH]; [done|].
  cbn [RoamGroup_each]. rewrite IH.
  by destruct j as [| | | |[]|[]|]; simplify_eq/=.
Qed.

(** X7: an element of the listing that is an empty string or an empty
    list is taken without complaint and gives a record with no member.
    For a listing whose elements are objects, empty strings and empty
    lists, [list_channels] returns one record per element, in order: the
    members of an object, no member for the others. *)
Theorem list_channels_empty_records E self w items groups :
  get_json E (mk_request "GET" groups_url (headers self) None)
    = Ret (JArr items) →
  Forall2 (λ j g, as_record j = Some g) items groups →
  (list_channels E self w).1 = Ret groups
  ∧ length groups = length items.
Proof.
  intros Hget Hrec. split; [|symmetry; by eapply Forall2_length].
  unfold list_channels, bind, requests_get_json, lift.
  rewrite Hget. cbn [fst]. by apply RoamGroup_each_records.
Qed.

Lemma list_channels_empty_records_witness :
  (list_channels
     (env_replying
        (JArr [JObj [("name", JStr "general")]; JStr EmptyString; JArr []]))
     (client_with None) world0).1
  = Ret [[("name", JStr "general")]; []; []]
  ∧ length [[("name", JStr "general")]; ([] : list (string * json)); []]
    = length [JObj [("name", JStr "general")]; JStr EmptyString; JArr []].
Proof.
  apply (list_channels_empty_records
           (env_replying
              (JArr [JObj [("name", JStr "general")]; JStr EmptyString;
                     JArr []]))
           (client_with None) world0).
  - reflexivity.
  - repeat constructor.
Defined.

Lemma list_channels_world E self w :
  (list_channels E self w).2
  = mk_world (clock w)
      (outbox w ++ [mk_request "GET" groups_url (headers self) None]).
Proof.
  unfold list_channels, bind, requests_get_json.
  destruct (get_json E _) as [[]| |]; reflexivity.
Qed.

Lemma test_connection_world E self w :
  (test_connection E self w).2
  = mk_world (clock w)
      (outbox w ++ [mk_request "GET" test_url (headers self) None]).
Proof.
  unfold test_connection, bind, requests_get_json.
  destruct (get_json E _) as [| |]; reflexivity.
Qed.

(** X8: [list_channels] hands exactly one request to the transport,
    whatever comes back: a GET of the listing endpoint with the client's
    headers and no payload; and an exception of the transport or of the
    JSON decoder is raised as it is. *)
Theorem list_channels_one_get E self w :
  let rq := mk_request "GET" "https://api.ro.am/v1/groups.list"
              (headers self) None in
  (list_channels E self w).2 = mk_world (clock w) (outbox w ++ [rq])
  ∧ ∀ e, get_json E rq = Raise e → (list_channels E self w).1 = Raise e.
Proof.
  intros rq. split; [apply list_channels_world|].
  intros e He.
  change (get_json E (mk_request "GET" groups_url (headers self) None)
          = Raise e) in He.
  unfold list_channels, bind, requests_get_json. by rewrite He.
Qed.

(** X9: [test_connection] hands exactly one request to the transport,
    whatever comes back: a GET of the test endpoint with the client's
    headers and no payload; and an exception of the transport or of the
    JSON decoder is raised as it is, not turned into [False]. *)
Theorem test_connection_one_get E self w :
  let rq := mk_request "GET" "https://api.ro.am/v1/test"
              (headers self) None in
  (test_connection E self w).2 = mk_world (clock w) (outbox w ++ [rq])
  ∧ ∀ e, get_json E rq = Raise e → (test_connection E self w).1 = Raise e.
Proof.
  intros rq. split; [apply test_connection_world|].
  intros e He.
  change (get_json E (mk_request "GET" test_url (headers self) None)
          = Raise e) in He.
  unfold test_connection, bind, requests_get_json. by rewrite He.
Qed.

(** X10: a test reply that decodes to anything but an object (a list, a
    string, a number, [null]) makes [test_connection] raise
    [AttributeError]; it does not return [False]. *)
Theorem test_connection_needs_object E self w body :
  get_json E (mk_request "GET" test_url (headers self) None) = Ret body →
  (∀ members, body ≠ JObj members) →
  (test_connection E self w).1
  = Raise (AttributeError
             ("'" ++ type_name body ++ "' object has no attribute 'get'")).
Proof.
  intros Hget Hno. unfold test_connection, bind, requests_get_json, lift.
  rewrite Hget. cbn [fst].
  destruct body; try done. by destruct (Hno members).
Qed.

Lemma test_connection_needs_object_witness :
  (test_connection (env_replying (JStr "ok")) (client_with None) world0).1
  = Raise (AttributeError
             ("'" ++ type_name (JStr "ok")
                  ++ "' object has no attribute 'get'")).
Proof.
  apply (test_connection_needs_object (env_replying (JStr "ok"))
           (client_with None) world0 (JStr "ok")).
  - reflexivity.
  - intros members. discriminate.
Defined.

(** X11: every request of a client built without extra headers carries the
    bearer token: the POST of [send_message] and the GETs of
    [list_channels] and [test_connection] all have the header
    [Authorization: Bearer <token>]. *)
Theorem requests_carry_token E name id img tok c self message chans w :
  __init__ name id img tok None c = Ret self →
  let bearer rq :=
    rq_headers rq !! "Authorization" = Some ("Bearer " ++ tok) in
  (∃ sent, outbox (send_message E self message chans w).2
           = (outbox w ++ sent)%list ∧ Forall bearer sent)
  ∧ (∃ sent, outbox (list_channels E self w).2
             = (outbox w ++ sent)%list ∧ Forall bearer sent)
  ∧ (∃ sent, outbox (test_connection E self w).2
             = (outbox w ++ sent)%list ∧ Forall bearer sent).
Proof.
  intros Hinit bearer.
  assert (Hh : headers self !! "Authorization" = Some ("Bearer " ++ tok)).
  { rewrite (init_headers _ _ _ _ _ _ _ Hinit).
    apply default_headers_lookup. }
  split; [|split].
  - destruct (send_message_cases E self message chans w)
      as [(-> & _)|(rs & -> & _)].
    + exists []. split; [by rewrite app_nil_r|constructor].
    + eexists [_]. split; [reflexivity|]. by repeat constructor.
  - rewrite list_channels_world. eexists [_].
    split; [reflexivity|]. by repeat constructor.
  - rewrite test_connection_world. eexists [_].
    split; [reflexivity|]. by repeat constructor.
Qed.

Lemma requests_carry_token_witness :
  let bearer (rq : http_request) :=
    rq_headers rq !! "Authorization" = Some ("Bearer " ++ "secret") in
  (∃ sent, outbox (send_message (env_replying JNull) (client_with None)
                     "hi" None world0).2
           = (outbox world0 ++ sent)%list ∧ Forall bearer sent)
  ∧ (∃ sent, outbox (list_channels (env_replying JNull) (client_with None)
                       world0).2
             = (outbox world0 ++ sent)%list ∧ Forall bearer sent)
  ∧ (∃ sent, outbox (test_connection (env_replying JNull)
                       (client_with None) world0).2
             = (outbox world0 ++ sent)%list ∧ Forall bearer sent).
Proof.
  apply (requests_carry_token (env_replying JNull) "bot" "42" "http://img"
           "secret" ANone (client_with None) "hi" None world0).
  reflexivity.
Defined.

(** ** The decorator: what a decorated call can and cannot do *)

Lemma wrapped_on_exception
    E self message chans message_success func args kwargs w e w1 :
  fn_body func args kwargs w = (Raise e, w1) →
  exc_is_Exception e = true →
  fn_body (notify E self message chans message_success func) args kwargs w
  = wrapped_except E self message chans func kwargs (clock w) e w1.
Proof.
  intros Hf He. cbn [notify fn_body].
  unfold wrapped, bind, now, try_except. by rewrite Hf, He.
Qed.


(** X12: a decorated call never makes up a value: when it returns [v], the
    decorated function returned [v] on the same arguments.  In particular
    it never returns when the function raised. *)
Theorem notify_returns_only_value
    E self message chans message_success func args kwargs w v w' :
  fn_body (notify E self message chans message_success func) args kwargs w
    = (Ret v, w') →
  ∃ w1, fn_body func args kwargs w = (Ret v, w1).
Proof.
  cbn [notify fn_body]. unfold wrapped, bind, now, try_except.
  destruct (fn_body func args kwargs w) as [[v1|e|] w1] eqn:Hf.
  - destruct message_success as [template|].
    + unfold lift. destruct (format_kw template _ _) as [text|e|].
      * destruct (send_message E self text chans w1) as [[[]|e|] w2].
        -- intros [= <- _]. by eexists.
        -- destruct (exc_is_Exception e); [|done].
           intros H. by apply (f_equal fst), wrapped_except_no_value in H.
        -- done.
      * destruct (exc_is_Exception e); [|done].
        intros H. by apply (f_equal fst), wrapped_except_no_value in H.
      * done.
    + unfold ret. intros [= <- _]. by eexists.
  - destruct (exc_is_Exception e); [|done].
    intros H. by apply (f_equal fst), wrapped_except_no_value in H.
  - done.
Qed.

Lemma notify_returns_only_value_witness :
  ∃ w1, fn_body f_one [VStr "T"] ∅ world0 = (Ret (VInt 1), w1).
Proof.
  apply (notify_returns_only_value (env_replying JNull)
           (client_with (Some ["c"])) "failed" None (Some "done") f_one
           [VStr "T"] ∅ world0 (VInt 1)
           (mk_world "2023-08-30 14:39:42"
              [post_of (client_with (Some ["c"])) "done" (Some ["c"])])).
  reflexivity.
Defined.

Lemma format_kw_clash template kwargs named k :
  k ∈ named.*1 →
  is_Some (kwargs !! k) →
  ∃ msg, format_kw template kwargs named = Raise (TypeError msg).
Proof.
  intros Hk Hkw. unfold format_kw.
  destruct (find _ named) as [[k' v']|] eqn:Hfind; [by eexists|].
  apply list_elem_of_fmap in Hk as ([k0 v0] & -> & Hin).
  apply list_elem_of_In in Hin.
  apply (find_none _ _ Hfind) in Hin. cbn in Hin.
  by apply bool_decide_eq_false in Hin.
Qed.

(** X13: a keyword argument named like a built-in variable
    ([func_name], [func_start_time], [func_end_time], [func_exception])
    breaks the notification.  When the function raises, or when it returns
    and there is a success template, the decorated call raises the
    [KeyError] of such a keyword (as CPython 3.11 does in the except
    clause) in place of the function's exception or value, and nothing is
    sent. *)
Theorem notify_keyword_clash
    E self message chans message_success func args kwargs w k r w1 :
  k ∈ builtin_names →
  is_Some (kwargs !! k) →
  fn_body func args kwargs w = (r, w1) →
  match r with
  | Raise e => exc_is_Exception e = true
  | Ret _ => is_Some message_success
  | Unmodelled => False
  end →
  ∃ k', k' ∈ builtin_names ∧ is_Some (kwargs !! k')
        ∧ fn_body (notify E self message chans message_success func)
            args kwargs w = (Raise (KeyError k'), w1).
Proof.
  intros Hk Hkw Hf Hr.
  assert (Hexcept : ∀ e0 w0,
    ∃ k', k' ∈ builtin_names ∧ is_Some (kwargs !! k')
          ∧ wrapped_except E self message chans func kwargs (clock w) e0 w0
            = (Raise (KeyError k'), w0)).
  { intros e0 w0. unfold wrapped_except, bind, lift.
    edestruct (format_kw_handling_clash message kwargs)
      as (k' & Hk' & Hkw' & ->); [|exact Hkw|].
    - exact Hk.
    - exists k'. by repeat split. }
  destruct r as [v|e|]; [|
    rewrite (wrapped_on_exception _ _ _ _ _ _ _ _ _ _ _ Hf Hr);
    apply Hexcept|done].
  destruct Hr as [template ->]. cbn [notify fn_body].
  unfold wrapped, bind, now, try_except, lift. rewrite Hf. cbn [clock].
  edestruct (format_kw_clash template kwargs) as [msg ->]; [|exact Hkw|].
  - exact Hk.
  - cbn [exc_is_Exception TypeError]. apply Hexcept.
Qed.

Lemma notify_keyword_clash_witness :
  (∃ k', k' ∈ builtin_names
         ∧ is_Some (({["func_name" := VStr "mine"]} : gmap string pyval)
                      !! k')
         ∧ fn_body (notify (env_replying JNull) (client_with (Some ["c"]))
                      "failed: {func_name}" None None f_boom)
             [] {["func_name" := VStr "mine"]} world0
           = (Raise (KeyError k'), world0))
  ∧ (∃ k', k' ∈ builtin_names
           ∧ is_Some (({["func_name" := VStr "mine"]} : gmap string pyval)
                        !! k')
           ∧ fn_body (notify (env_replying JNull)
                        (client_with (Some ["c"]))
                        "failed" None (Some "done") f_one)
               [] {["func_name" := VStr "mine"]} world0
             = (Raise (KeyError k'), mk_world "2023-08-30 14:39:42" [])).
Proof.
  split.
  - apply (notify_keyword_clash (env_replying JNull)
             (client_with (Some ["c"])) "failed: {func_name}" None None
             f_boom [] {["func_name" := VStr "mine"]} world0 "func_name"
             (Raise (ValueError "boom")) world0).
    + apply (bool_decide_unpack ("func_name" ∈ builtin_names)).
      vm_compute. reflexivity.
    + eexists. reflexivity.
    + reflexivity.
    + reflexivity.
  - apply (notify_keyword_clash (env_replying JNull)
             (client_with (Some ["c"])) "failed" None (Some "done")
             f_one [] {["func_name" := VStr "mine"]} world0 "func_name"
             (Ret (VInt 1)) (mk_world "2023-08-30 14:39:42" [])).
    + apply (bool_decide_unpack ("func_name" ∈ builtin_names)).
      vm_compute. reflexivity.
    + eexists. reflexivity.
    + reflexivity.
    + eexists. reflexivity.
Defined.



Lemma sends_at_most_refl n w : sends_at_most n w w.
Proof.
  exists []. split; [|cbn; lia]. destruct w. cbn. by rewrite app_nil_r.
Qed.

Lemma sends_at_most_trans n m w w' w'' :
  sends_at_most n w w' → sends_at_most m w' w'' →
  sends_at_most (n + m) w w''.
Proof.
  intros (s1 & -> & H1) (s2 & -> & H2). exists (s1 ++ s2)%list. cbn.
  split; [by rewrite app_assoc|]. rewrite length_app. lia.
Qed.

Lemma sends_at_most_mono n m w w' :
  (n ≤ m)%nat → sends_at_most n w w' → sends_at_most m w w'.
Proof. intros Hnm (s & -> & H). exists s. split; [done|lia]. Qed.

Lemma send_message_sends_at_most E self message chans w :
  sends_at_most 1 w (send_message E self message chans w).2.
Proof.
  destruct (send_message_cases E self message chans w)
    as [(-> & _)|(rs & -> & _)].
  - apply sends_at_most_refl.
  - exists [post_of self message rs]. split; [reflexivity|cbn; lia].
Qed.

Lemma wrapped_except_sends_at_most
    E self message chans func kwargs t0 e w :
  sends_at_most 1 w
    (wrapped_except E self message chans func kwargs t0 e w).2.
Proof.
  unfold wrapped_except, bind, lift.
  destruct (format_kw_handling message kwargs _) as [text| |];
    try apply sends_at_most_refl.
  pose proof (send_message_sends_at_most E self text chans w) as Hs.
  by destruct (send_message E self text chans w) as [[[]| |] w2].
Qed.

(** X15: beyond what the decorated function itself does to the world, a
    decorated call hands at most two requests to the transport (a success
    message whose send fails, then the failure message) and leaves the
    clock alone. *)
Theorem notify_sends_at_most_two
    E self message chans message_success func args kwargs w :
  sends_at_most 2
    (fn_body func args kwargs w).2
    (fn_body (notify E self message chans message_success func)
       args kwargs w).2.
Proof.
  cbn [notify fn_body]. unfold wrapped, bind, now, try_except.
  destruct (fn_body func args kwargs w) as [[v|e|] w1]; cbn [snd].
  - destruct message_success as [template|];
      [|apply sends_at_most_refl].
    unfold lift. destruct (format_kw template kwargs _) as [text|e|].
    + pose proof (send_message_sends_at_most E self text chans w1) as Hs.
      destruct (send_message E self text chans w1) as [[[]|e|] w2];
        cbn [snd] in *; try by eapply sends_at_most_mono; [|exact Hs]; lia.
      destruct (exc_is_Exception e);
        [|by eapply sends_at_most_mono; [|exact Hs]; lia].
      apply (sends_at_most_trans 1 1 _ w2); [done|].
      apply wrapped_except_sends_at_most.
    + destruct (exc_is_Exception e); [|apply sends_at_most_refl].
      eapply sends_at_most_mono; [|apply wrapped_except_sends_at_most]. lia.
    + apply sends_at_most_refl.
  - destruct (exc_is_Exception e); [|apply sends_at_most_refl].
    eapply sends_at_most_mono; [|apply wrapped_except_sends_at_most]. lia.
  - apply sends_at_most_refl.
Qed.



(** ** Templates without fields *)








(** X18 is [notify_base_exception_passes] above: an exception that does not
    derive from [Exception] goes through the decorator as it is, with
    nothing filled and nothing sent.  Here on a keyboard interrupt. *)
Lemma notify_base_exception_passes_witness :
  fn_body
    (notify (env_replying JNull) (client_with (Some ["c"]))
       "failed: {func_exception}" None (Some "done") f_interrupted)
    [] ∅ world0
  = (Raise (mk_exn "KeyboardInterrupt" false EmptyString), world0).
Proof.
  apply (notify_base_exception_passes (env_replying JNull)
           (client_with (Some ["c"])) "failed: {func_exception}" None
           (Some "done") f_interrupted [] ∅ world0); reflexivity.
Defined.

(** X19 at [f("T")] raising [ValueError("boom")] under the template
    [{table} failed]: the call raises [KeyError('table')], not the
    [ValueError]. *)
Lemma notify_failure_unfillable_witness :
  (∃ e',
     str_format "{table} failed"
       (∅ ∪ list_to_map
          [("func_start_time", VStr (clock world0));
           ("func_end_time", VStr "DID NOT COMPLETE");
           ("func_exception", VExc (ValueError "boom"));
           ("func_name", VStr (fn_name f_boom))]) = Raise e'
     ∧ exc_class e' ∈ ["KeyError"; "IndexError"; "ValueError"]
     ∧ fn_body
         (notify (env_replying JNull) (client_with (Some ["c"]))
            "{table} failed" None None f_boom)
         [VStr "T"] ∅ world0 = (Raise e', world0))
  ∧ fn_body
      (notify (env_replying JNull) (client_with (Some ["c"]))
         "{table} failed" None None f_boom)
      [VStr "T"] ∅ world0 = (Raise (KeyError "table"), world0).
Proof.
  split; [|reflexivity].
  apply (notify_failure_unfillable (env_replying JNull)
           (client_with (Some ["c"])) "{table} failed" None None f_boom
           [VStr "T"] ∅ world0 (ValueError "boom") world0 "table").
  - reflexivity.
  - reflexivity.
  - intros k _. apply lookup_empty.
  - vm_compute. left.
  - reflexivity.
  - apply (bool_decide_unpack ("table" ∉ builtin_names)).
    vm_compute. reflexivity.
Defined.
